(** * pymatgen.io.abinitio.task: a shallow embedding and its properties

    The development follows [src/pymatgen/io/abinitio/task.py]:
    the status state machine of [Task], the on-disk layout written by
    [AbinitTask.build] and [TaskManager.launch], the result record
    [TaskResults], the parallel hints [ParalConf]/[ParalHints] with
    [select_optimal_conf], and the validated [TaskPolicy].

    Python methods that mutate [self] are state-passing functions into
    [outcome], which records either the returned value or the raised
    exception together with the state reached at that point. *)

From Stdlib Require Import ZArith Floats Lia Ascii String.
From stdpp Require Import gmap strings list fin_maps pretty sorting.

Open Scope string_scope.
Open Scope list_scope.
Open Scope Z_scope.

(* ===================================================================== *)
(** * Part I: definitions                                                 *)
(* ===================================================================== *)

(** ** Python exceptions and the state/exception monad *)

Inductive exn : Type :=
| RuntimeError (msg : string)
| NameError (name : string)
| AttributeError (attr : string)
| IndexError (msg : string)
| ValueError (msg : string)
| IOError (path : string)
| OverflowError (msg : string)
| OSError (path : string)
| OtherError (msg : string).

Inductive outcome (S A : Type) : Type :=
| Return (a : A) (s : S)
| Raise (e : exn) (s : S).

Arguments Return {S A} a s.
Arguments Raise {S A} e s.

(** The state in which a call ends, whether it returned or raised. *)
Definition final_state {S A} (o : outcome S A) : S :=
  match o with
  | Return _ s => s
  | Raise _ s => s
  end.

Definition returned {S A} (o : outcome S A) : option A :=
  match o with
  | Return a _ => Some a
  | Raise _ _ => None
  end.

Definition raises {S A} (o : outcome S A) : bool :=
  match o with
  | Return _ _ => false
  | Raise _ _ => true
  end.

Definition M (S A : Type) : Type := S -> outcome S A.

Definition ret {S A} (a : A) : M S A := fun s => Return a s.

Definition raise {S A} (e : exn) : M S A := fun s => Raise e s.

Definition bind {S A B} (c : M S A) (k : A -> M S B) : M S B :=
  fun s =>
    match c s with
    | Return a s' => k a s'
    | Raise e s' => Raise e s'
    end.

Definition get {S} : M S S := fun s => Return s s.

Definition modify {S} (f : S -> S) : M S unit := fun s => Return tt (f s).

Notation "'do' x <- c ; k" := (bind c (fun x => k))
  (at level 10, x name, c at level 100, k at level 200).

(** The line feed of Python's ["\n"]. *)
Definition newline : string := String "010"%char EmptyString.

(** Truth value of a Python string ([if err_msg:]). *)
Definition str_truthy (s : string) : bool :=
  match s with
  | EmptyString => false
  | String _ _ => true
  end.

(** [str(x)] for a value that is a string or [None]. *)
Definition str_of_opt (o : option string) : string :=
  match o with
  | None => "None"
  | Some s => s
  end.

(** [str(x)] for a value that is an integer or [None]. *)
Definition str_of_rc (o : option Z) : string :=
  match o with
  | None => "None"
  | Some z => pretty z
  end.

(** ** The file system seen through [os.path] and [File] *)

Record FileSystem : Type := {
  files : gmap string string;   (* regular files: path -> content *)
  dirs : gset string            (* directories *)
}.

Definition os_path_exists (fsys : FileSystem) (p : string) : bool :=
  bool_decide (p ∈ dom (files fsys)) || bool_decide (p ∈ dirs fsys).

Definition os_path_join (a b : string) : string := a +:+ "/" +:+ b.

(** [os.makedirs(p)]: fails when [p] is already there.  Intermediate
    directories are not tracked one by one: the directory itself is
    added, and a regular file in the place of a parent, on which
    [os.makedirs] raises, is not looked for. *)
Definition os_makedirs (p : string) : M FileSystem unit :=
  fun fsys =>
    if os_path_exists fsys p then Raise (OSError p) fsys
    else Return tt {| files := files fsys; dirs := {[p]} ∪ dirs fsys |}.

(** [with open(p, "w") as fh: fh.write(s)]: truncates, then writes. *)
Definition open_w_write (p s : string) : M FileSystem unit :=
  fun fsys =>
    if bool_decide (p ∈ dirs fsys) then Raise (IOError p) fsys
    else Return tt {| files := <[p := s]> (files fsys); dirs := dirs fsys |}.

(** [File(p).exists] and [File(p).read()]. *)
Definition File_exists (fsys : FileSystem) (p : string) : bool :=
  os_path_exists fsys p.

Definition File_read (fsys : FileSystem) (p : string) : option string :=
  files fsys !! p.

(** ** External collaborators *)

(** The report of [EventParser.parse]. *)
Record EventReport : Type := {
  run_completed : bool;
  errors : list string;
  bugs : list string
}.

Inductive parse_result : Type :=
| Parsed (report : EventReport)
| ParserError (msg : string)       (* parser.Error *)
| ParserCrash (e : exn).           (* any other exception *)

(** A handle on a [subprocess.Popen] object. *)
Record Popen : Type := { pid : Z }.

(** Everything a call reads from outside the task: the disk, the clock,
    the event parser, the child process, and [File.write], whose body is
    in [pymatgen.io.abinitio.utils]. *)
Record World : Type := {
  fs : FileSystem;
  EventParser_parse : string -> parse_result;
  time_time : Z;
  time_asctime : string;
  Popen_poll : Popen -> option Z;
  Popen_wait : Popen -> Z;
  File_write : string -> string -> M FileSystem unit
}.

(** The queue adapter: [get_script_str] and [submit_to_queue]. *)
Record ScriptArgs : Type := {
  job_name : string;
  launch_dir : string;
  executable_arg : string;
  qout_path : string;
  qerr_path : string;
  stdin_arg : string;
  stdout_arg : string;
  stderr_arg : string
}.

Record QueueAdapter : Type := {
  get_script_str : ScriptArgs -> string;
  submit_to_queue : string -> Popen * Z
}.

Record TaskManager : Type := { qadapter : QueueAdapter }.

Record Strategy : Type := {
  make_input_str : string;      (* what strategy.make_input() returns *)
  pseudos : list string         (* paths of the pseudopotential files *)
}.

(** ** [Task]: the status state machine *)

Definition S_READY : Z := 1.
Definition S_SUB : Z := 2.
Definition S_RUN : Z := 4.
Definition S_DONE : Z := 8.
Definition S_ERROR : Z := 16.
Definition S_OK : Z := 32.

Definition POSSIBLE_STATUS : list Z :=
  [S_READY; S_SUB; S_RUN; S_DONE; S_ERROR; S_OK].

(** The attributes of an [AbinitTask].  An attribute that the code reads
    under [try ... except AttributeError] is an [option]: [None] is "not
    set".  [_returncode] holds a Python value that is an integer or
    [None], hence the two levels. *)
Record Task : Type := {
  workdir : string;
  strategy : Strategy;
  manager : TaskManager;
  _status : Z;
  history : list string;                 (* collections.deque(maxlen=10) *)
  _returncode : option (option Z);
  _process : option Popen;               (* not set: a FakeProcess *)
  _queue_id : option Z;
  _submission_time : option Z;
  _executable : option string
}.

Definition with_status (v : Z) (t : Task) : Task :=
  {| workdir := workdir t; strategy := strategy t; manager := manager t;
     _status := v; history := history t; _returncode := _returncode t;
     _process := _process t; _queue_id := _queue_id t;
     _submission_time := _submission_time t; _executable := _executable t |}.

Definition with_history (v : list string) (t : Task) : Task :=
  {| workdir := workdir t; strategy := strategy t; manager := manager t;
     _status := _status t; history := v; _returncode := _returncode t;
     _process := _process t; _queue_id := _queue_id t;
     _submission_time := _submission_time t; _executable := _executable t |}.

Definition with_returncode (v : option Z) (t : Task) : Task :=
  {| workdir := workdir t; strategy := strategy t; manager := manager t;
     _status := _status t; history := history t; _returncode := Some v;
     _process := _process t; _queue_id := _queue_id t;
     _submission_time := _submission_time t; _executable := _executable t |}.

Definition with_process (v : Popen) (t : Task) : Task :=
  {| workdir := workdir t; strategy := strategy t; manager := manager t;
     _status := _status t; history := history t; _returncode := _returncode t;
     _process := Some v; _queue_id := _queue_id t;
     _submission_time := _submission_time t; _executable := _executable t |}.

Definition set_queue_id (v : Z) (t : Task) : Task :=
  {| workdir := workdir t; strategy := strategy t; manager := manager t;
     _status := _status t; history := history t; _returncode := _returncode t;
     _process := _process t; _queue_id := Some v;
     _submission_time := _submission_time t; _executable := _executable t |}.

Definition with_submission_time (v : Z) (t : Task) : Task :=
  {| workdir := workdir t; strategy := strategy t; manager := manager t;
     _status := _status t; history := history t; _returncode := _returncode t;
     _process := _process t; _queue_id := _queue_id t;
     _submission_time := Some v; _executable := _executable t |}.

(** [AbinitTask.__init__] after [Task.__init__]: status Ready, empty
    history, no process, no return code.  [wd] is the working directory
    as [os.path.abspath] returns it. *)
Definition AbinitTask_init (wd : string) (st : Strategy) (m : TaskManager) : Task :=
  {| workdir := wd; strategy := st; manager := m;
     _status := S_READY; history := []; _returncode := None;
     _process := None; _queue_id := None;
     _submission_time := None; _executable := None |}.

(** [deque(maxlen=10).append(x)]: the oldest entries fall off the left. *)
Definition deque_append (x : string) (h : list string) : list string :=
  let h' := h ++ [x] in
  drop (length h' - 10)%nat h'.

Definition history_append (x : string) (t : Task) : Task :=
  with_history (deque_append x (history t)) t.

(** The properties [status], [returncode], [name], [executable]. *)
Definition status (t : Task) : Z := _status t.

Definition returncode (t : Task) : option Z :=
  match _returncode t with
  | Some v => v
  | None => Some 0
  end.

Definition name (t : Task) : string := workdir t.

Definition executable (t : Task) : string :=
  match _executable t with
  | Some e => e
  | None => "abinit"
  end.

(** The files of a task, as paths. *)
Definition input_file (t : Task) : string := os_path_join (workdir t) "run.abi".
Definition output_file (t : Task) : string := os_path_join (workdir t) "run.abo".
Definition files_file (t : Task) : string := os_path_join (workdir t) "run.files".
Definition job_file (t : Task) : string := os_path_join (workdir t) "job.sh".
Definition log_file (t : Task) : string := os_path_join (workdir t) "run.log".
Definition stderr_file (t : Task) : string := os_path_join (workdir t) "run.err".
Definition qerr_file (t : Task) : string := os_path_join (workdir t) "queue.err".
Definition qout_file (t : Task) : string := os_path_join (workdir t) "queue.out".

(** [Task.set_status].  After [__init__] the attribute [_status] is
    always there, so [changed] is [status != self._status]. *)
Definition set_status (w : World) (new_status : Z) (err_info : option string)
  : M Task Z :=
  fun t =>
    if negb (bool_decide (new_status ∈ POSSIBLE_STATUS)) then
      Raise (RuntimeError ("Unknown status: " +:+ pretty new_status)) t
    else
      let changed := negb (new_status =? _status t) in
      let t0 := with_status new_status t in
      if changed then
        let t1 :=
          if new_status =? S_SUB then
            history_append ("Submitted on " +:+ time_asctime w)
              (with_submission_time (time_time w) t0)
          else t0 in
        let t2 :=
          if new_status =? S_OK then
            history_append ("Completed on " +:+ time_asctime w) t1
          else t1 in
        let t3 :=
          if new_status =? S_ERROR then
            history_append ("Error info:" +:+ newline +:+ " " +:+ str_of_opt err_info) t2
          else t2 in
        Return new_status t3
      else Return new_status t0.

(** [self.process.poll()] and [self.process.wait()]: a task without
    [_process] answers through a [FakeProcess]. *)
Definition process_poll (w : World) (t : Task) : option Z :=
  match _process t with
  | Some p => Popen_poll w p
  | None => None
  end.

(** [Task.poll]. *)
Definition poll (w : World) : M Task (option Z) :=
  fun t =>
    let rc := process_poll w t in
    let t1 := with_returncode rc t in
    match rc with
    | Some _ =>
        (do _ <- set_status w S_DONE None ; ret rc) t1
    | None => Return rc t1
    end.

(** [Task.wait]. *)
Definition wait (w : World) : M Task (option Z) :=
  fun t =>
    match _process t with
    | None => Raise (RuntimeError "Cannot wait a FakeProcess") t
    | Some p =>
        let rc := Some (Popen_wait w p) in
        (do _ <- set_status w S_DONE None ; ret rc) (with_returncode rc t)
    end.

(** The pattern used twice at the end of [Task.check_status]:
    [if f.exists: err_info = f.read(); if err_info: return
    self.set_status(self.S_ERROR, err_info=err_info)], then go on. *)
Definition error_file_or (w : World) (p : string) (k : M Task (option Z))
  : M Task (option Z) :=
  fun t =>
    if File_exists (fs w) p then
      match File_read (fs w) p with
      | None => Raise (IOError p) t
      | Some err_info =>
          if str_truthy err_info then
            (do s <- set_status w S_ERROR (Some err_info) ; ret (Some s)) t
          else k t
      end
    else k t.

(** The tail of [Task.check_status], from [parser = EventParser()] on. *)
Definition check_status_parse (w : World) : M Task (option Z) :=
  fun t =>
    match EventParser_parse w (output_file t) with
    | ParserCrash e => Raise e t
    | ParserError msg =>
        (do s <- set_status w S_ERROR (Some msg) ; ret (Some s)) t
    | Parsed report =>
        if run_completed report then
          (do s <- set_status w S_OK None ; ret (Some s)) t
        else if negb (bool_decide (errors report = []))
                || negb (bool_decide (bugs report = [])) then
          (* err_info=str(report.errors) + str(report_bus): the second
             name is not bound, so set_status is never entered *)
          Raise (NameError "report_bus") t
        else
          error_file_or w (stderr_file t)
            (error_file_or w (qerr_file t)
               (do s <- set_status w S_RUN None ; ret (Some s))) t
    end.

(** [Task.check_status].  The result is a Python value: [None] for the
    bare [return], an integer otherwise. *)
Definition check_status (w : World) : M Task (option Z) :=
  fun t =>
    if status t <? S_SUB then Return None t
    else if negb (bool_decide (returncode t = Some 0)) then
      (do s <- set_status w S_ERROR
                 (Some ("return code " +:+ str_of_rc (returncode t))) ;
       ret (Some s)) t
    else if negb (File_exists (fs w) (output_file t)) then
      if negb (File_exists (fs w) (stderr_file t)) then
        Return (Some (status t)) t
      else
        match File_read (fs w) (stderr_file t) with
        | None => Raise (IOError (stderr_file t)) t
        | Some err_msg =>
            if str_truthy err_msg then
              (* err_info=err_msf: the name is not bound *)
              Raise (NameError "err_msf") t
            else check_status_parse w t
        end
    else check_status_parse w t.

(** What a call can do to the task: leave it as it is (also when it
    raises), or install Running, Error or Ok and return that status. *)
Inductive check_status_effect (t : Task) : outcome Task (option Z) -> Prop :=
| cs_untouched (o : outcome Task (option Z)) :
    final_state o = t -> check_status_effect t o
| cs_installed (s : Z) (t' : Task) :
    s = S_RUN \/ s = S_ERROR \/ s = S_OK ->
    status t' = s ->
    check_status_effect t (Return (Some s) t').

(** ** [AbinitTask.build], [TaskManager.write_jobfile], [TaskManager.launch] *)

(** [prefix = Prefix(pj("indata", "in"), pj("outdata", "out"),
    pj("tmpdata", "tmp"))]; the data directories are the heads. *)
Definition prefix_idata : string := os_path_join "indata" "in".
Definition prefix_odata : string := os_path_join "outdata" "out".
Definition prefix_tdata : string := os_path_join "tmpdata" "tmp".

Definition indata_dir (t : Task) : string := os_path_join (workdir t) "indata".
Definition outdata_dir (t : Task) : string := os_path_join (workdir t) "outdata".
Definition tmpdata_dir (t : Task) : string := os_path_join (workdir t) "tmpdata".

(** [AbinitTask.filesfile_string]. *)
Definition filesfile_string (t : Task) : string :=
  String.concat newline
    ([input_file t; output_file t;
      os_path_join (workdir t) prefix_idata;
      os_path_join (workdir t) prefix_odata;
      os_path_join (workdir t) prefix_tdata]
     ++ pseudos (strategy t)).

Definition make_input (t : Task) : string := make_input_str (strategy t).

(** [if not os.path.exists(p): c]. *)
Definition unless_exists (p : string) (c : M FileSystem unit) : M FileSystem unit :=
  fun fsys => if os_path_exists fsys p then Return tt fsys else c fsys.

(** [TaskManager.write_jobfile]. *)
Definition write_jobfile (m : TaskManager) (t : Task) : M FileSystem string :=
  let script :=
    get_script_str (qadapter m)
      {| job_name := name t; launch_dir := workdir t;
         executable_arg := executable t;
         qout_path := qout_file t; qerr_path := qerr_file t;
         stdin_arg := files_file t; stdout_arg := log_file t;
         stderr_arg := stderr_file t |} in
  let script_file := job_file t in
  do _ <- open_w_write script_file script ;
  ret script_file.

(** [AbinitTask.build]. *)
Definition build (w : World) (t : Task) : M FileSystem unit :=
  do _ <- unless_exists (workdir t) (os_makedirs (workdir t)) ;
  do _ <- unless_exists (indata_dir t) (os_makedirs (indata_dir t)) ;
  do _ <- unless_exists (outdata_dir t) (os_makedirs (outdata_dir t)) ;
  do _ <- unless_exists (tmpdata_dir t) (os_makedirs (tmpdata_dir t)) ;
  do _ <- unless_exists (files_file t)
            (File_write w (files_file t) (filesfile_string t)) ;
  do _ <- File_write w (input_file t) (make_input t) ;
  do _ <- write_jobfile (manager t) t ;
  ret tt.

(** [TaskManager.launch]: the state is the task together with the disk. *)
Definition launch (w : World) (m : TaskManager) (t : Task)
  : outcome (Task * FileSystem) Popen :=
  match build w t (fs w) with
  | Raise e fs1 => Raise e (t, fs1)
  | Return _ fs1 =>
      match write_jobfile m t fs1 with
      | Raise e fs2 => Raise e (t, fs2)
      | Return script_file fs2 =>
          match set_status w S_SUB None t with
          | Raise e t1 => Raise e (t1, fs2)
          | Return _ t1 =>
              let (process, queue_id) := submit_to_queue (qadapter m) script_file in
              Return process (set_queue_id queue_id t1, fs2)
          end
      end
  end.

(** The last statement of [AbinitTask.start]:
    [self._process = self.manager.launch(self)]. *)
Definition submit (w : World) (t : Task) : outcome (Task * FileSystem) unit :=
  match launch w (manager t) t with
  | Return process (t1, fs1) => Return tt (with_process process t1, fs1)
  | Raise e s => Raise e s
  end.

(** The calls a supervisor makes on a task, and the task they leave
    behind (also when they raise).  The world is given anew at each call:
    the disk, the clock and the child process change between calls. *)
Inductive call : Type := Submit | Poll | Wait | CheckStatus.

Definition step (w : World) (c : call) (t : Task) : Task :=
  match c with
  | Submit => fst (final_state (submit w t))
  | Poll => final_state (poll w t)
  | Wait => final_state (wait w t)
  | CheckStatus => final_state (check_status w t)
  end.

(** The statuses seen after each call of a sequence. *)
Fixpoint trace (calls : list (World * call)) (t : Task) : list Z :=
  match calls with
  | [] => []
  | (w, c) :: rest => let t' := step w c t in status t' :: trace rest t'
  end.

(** "The status never decreases" along a list of successive statuses. *)
Fixpoint nondecreasing_from (s : Z) (l : list Z) : Prop :=
  match l with
  | [] => True
  | s' :: l' => s <= s' /\ nondecreasing_from s' l'
  end.

(** ** [TaskResults] *)

(** The dictionary built by [Task.get_results]: the four mandatory keys
    and the list under [EXC_KEY]. *)
Record TaskResults : Type := {
  task_name : string;
  task_returncode : Z;
  task_status : Z;
  task_events : string;
  _exceptions : list string
}.

(** [TaskResults.__init__] on a dictionary without [EXC_KEY]. *)
Definition TaskResults_init (nm : string) (rc st : Z) (ev : string) : TaskResults :=
  {| task_name := nm; task_returncode := rc; task_status := st;
     task_events := ev; _exceptions := [] |}.

Definition exceptions (r : TaskResults) : list string := _exceptions r.

Definition with_exceptions (l : list string) (r : TaskResults) : TaskResults :=
  {| task_name := task_name r; task_returncode := task_returncode r;
     task_status := task_status r; task_events := task_events r;
     _exceptions := l |}.

(** [TaskResults.push_exceptions]; the arguments are given by their
    [str()]. *)
Fixpoint push_exceptions (excs : list string) (r : TaskResults) : TaskResults :=
  match excs with
  | [] => r
  | newstr :: rest =>
      push_exceptions rest
        (if bool_decide (newstr ∈ exceptions r) then r
         else with_exceptions (exceptions r ++ [newstr]) r)
  end.

Section TaskResultsClass.

(** What the attribute lookup [self.S_OK] finds on a [TaskResults]
    instance: [None] when neither the class nor its bases [dict] and
    [MSONable] bind the name. *)
Variable class_S_OK : option Z.

(** [TaskResults.assert_valid].  The [assert] has no message, so the
    [str()] of the [AssertionError] it raises is empty; [and] does not
    evaluate its right operand when the left one is false. *)
Definition assert_valid : M TaskResults (list string) :=
  fun r =>
    if negb (task_returncode r =? 0) then
      let r' := push_exceptions [""] r in Return (exceptions r') r'
    else
      match class_S_OK with
      | None => Raise (AttributeError "S_OK") r
      | Some ok =>
          if task_status r =? ok then Return (exceptions r) r
          else let r' := push_exceptions [""] r in Return (exceptions r') r'
      end.

End TaskResultsClass.

(** The class statement [class TaskResults(dict, MSONable)] binds
    [_MANDATORY_KEYS] and [EXC_KEY] and the methods; [S_OK] is bound in
    [Task], which is not among its bases. *)
Definition TaskResults_S_OK : option Z := None.

(** ** [ParalConf] and [ParalHints] *)

(** A Python [float] is a binary64 number: the kernel's [float], with
    its IEEE 754 product and comparisons, infinities and NaN. *)

(** [float(n)] for a Python [int], as [float * int] converts its integer
    operand: rounded to the nearest binary64 number, ties to even;
    [None] stands for the [OverflowError] raised when the rounded value
    does not fit. *)
Definition float_of_int (n : Z) : option float :=
  let f := SF2Prim (binary_normalize prec emax n 0 false) in
  if PrimFloat.is_infinity f then None else Some f.

(** One configuration.  The three keys that [_DEFAULTS] can supply are
    optional in the dictionary read from ABINIT; [efficiency] is the
    float that ABINIT writes. *)
Record ParalConf : Type := {
  tot_ncpus : Z;
  mpi_ncpus : Z;
  efficiency : float;
  omp_ncpus : option Z;
  mem_per_cpu : option float;
  vars : option (list (string * string))
}.

Definition or_default {A} (o : option A) (d : A) : option A :=
  match o with
  | Some a => Some a
  | None => Some d
  end.

(** [ParalConf.__init__]: add the defaults that are not in [self]. *)
Definition ParalConf_init (d : ParalConf) : ParalConf :=
  {| tot_ncpus := tot_ncpus d; mpi_ncpus := mpi_ncpus d;
     efficiency := efficiency d;
     omp_ncpus := or_default (omp_ncpus d) 1;
     mem_per_cpu := or_default (mem_per_cpu d) 0%float;
     vars := or_default (vars d) [] |}.

(** [AttrDict.copy]: a new object of the same class from the same items. *)
Definition ParalConf_copy (c : ParalConf) : ParalConf := ParalConf_init c.

(** [ParalConf.speedup]: [self.efficiency * self.tot_ncpus], a float
    times an int.  [None] stands for the [OverflowError] of the
    conversion of [tot_ncpus]. *)
Definition speedup (c : ParalConf) : option float :=
  match float_of_int (tot_ncpus c) with
  | Some n => Some (efficiency c * n)%float
  | None => None
  end.

Record ParalHints : Type := {
  header : gmap string Z;
  _confs : list ParalConf
}.

(** [ParalHints.__init__]. *)
Definition ParalHints_init (h : gmap string Z) (confs : list ParalConf) : ParalHints :=
  {| header := h; _confs := map ParalConf_init confs |}.

(** [ParalHints.copy]. *)
Definition ParalHints_copy (self : ParalHints) : ParalHints :=
  ParalHints_init (header self) (_confs self).

(** [list.sort(key=...)].  The keys are computed first, one per element
    and in order; an exception in a key leaves the list as it was
    ([None]).  The elements are then sorted on their keys with [<]
    alone, and the sort is stable: an element goes in front of the first
    one whose key is not smaller than its own.  On keys that [<] orders
    totally (no NaN) this is the result of any stable sort. *)
Fixpoint decorate {A} (key : A -> option float) (l : list A)
  : option (list (float * A)) :=
  match l with
  | [] => Some []
  | x :: l' =>
      match key x with
      | None => None
      | Some k =>
          match decorate key l' with
          | None => None
          | Some d => Some ((k, x) :: d)
          end
      end
  end.

Fixpoint insert_by {A} (x : float * A) (l : list (float * A)) : list (float * A) :=
  match l with
  | [] => [x]
  | y :: l' =>
      if (fst y <? fst x)%float then y :: insert_by x l'
      else x :: y :: l'
  end.

Definition sort_keyed {A} (l : list (float * A)) : list (float * A) :=
  foldr insert_by [] l.

Definition list_sort {A} (key : A -> option float) (l : list A) : option (list A) :=
  match decorate key l with
  | Some d => Some (map snd (sort_keyed d))
  | None => None
  end.




(** [ParalHints.sort_by_speedup] and [sort_by_efficiency], in place. *)
Definition sort_by_speedup : M ParalHints unit :=
  fun self =>
    match list_sort speedup (_confs self) with
    | Some l => Return tt {| header := header self; _confs := l |}
    | None => Raise (OverflowError "long int too large to convert to float") self
    end.

Definition sort_by_efficiency : M ParalHints unit :=
  fun self =>
    match list_sort (fun c => Some (efficiency c)) (_confs self) with
    | Some l => Return tt {| header := header self; _confs := l |}
    | None => Raise (OverflowError "long int too large to convert to float") self
    end.

(** [hints[-1]]. *)
Definition getitem_last (self : ParalHints) : outcome ParalHints ParalConf :=
  match last (_confs self) with
  | Some c => Return c self
  | None => Raise (IndexError "list index out of range") self
  end.

(** ** [TaskPolicy] *)

#[warnings="-register-all"]
Inductive pyvalue : Type :=
| PyNone
| PyBool (b : bool)
| PyInt (z : Z)
| PyStr (s : string)
| PyList (l : list pyvalue).

Definition py_truthy (v : pyvalue) : bool :=
  match v with
  | PyNone => false
  | PyBool b => b
  | PyInt z => negb (z =? 0)
  | PyStr s => str_truthy s
  | PyList l => match l with [] => false | _ :: _ => true end
  end.

Definition is_None (v : pyvalue) : bool :=
  match v with
  | PyNone => true
  | _ => false
  end.

Definition TaskPolicy_DEFAULTS : gmap string pyvalue :=
  list_to_map
    [("autoparal", PyInt 0);
     ("mode", PyStr "default");
     ("max_ncpus", PyNone);
     ("use_fw", PyBool false);
     ("constraints", PyList [])].

(** The first loop of [TaskPolicy.__init__]. *)
Definition unknown_keys_msg (self : gmap string pyvalue) : string :=
  foldl (fun err_msg kv =>
           if bool_decide (fst kv ∈ dom TaskPolicy_DEFAULTS) then err_msg
           else err_msg +:+ "Unknow key " +:+ fst kv +:+ newline)
        "" (map_to_list self).

(** The second loop of [TaskPolicy.__init__]. *)
Definition fill_defaults (self : gmap string pyvalue) : gmap string pyvalue :=
  foldl (fun acc kv =>
           if bool_decide (fst kv ∈ dom acc) then acc
           else <[fst kv := snd kv]> acc)
        self (map_to_list TaskPolicy_DEFAULTS).

(** [TaskPolicy.__init__]; the state is [self], which starts as the
    dictionary of the keyword arguments. *)
Definition TaskPolicy_init : M (gmap string pyvalue) unit :=
  fun self =>
    let err_msg := unknown_keys_msg self in
    if str_truthy err_msg then Raise (ValueError err_msg) self
    else
      let self1 := fill_defaults self in
      match self1 !! "autoparal", self1 !! "max_ncpus" with
      | Some autoparal, Some max_ncpus =>
          if py_truthy autoparal && is_None max_ncpus then
            Raise (ValueError
                     "When autoparal is not zero, max_ncpus must be specified.")
                  self1
          else Return tt self1
      | None, _ => Raise (AttributeError "autoparal") self1
      | Some autoparal, None =>
          if py_truthy autoparal then Raise (AttributeError "max_ncpus") self1
          else Return tt self1
      end.

(** [ParalHints.select_optimal_conf].  The state is the caller's
    [self]; [hints] and the second copy are local objects.  The [print]
    before the last [return] writes to standard output only. *)
Definition select_optimal_conf (policy : gmap string pyvalue)
  : M ParalHints ParalConf :=
  fun self =>
    match sort_by_speedup (ParalHints_copy self) with
    | Raise e _ => Raise e self
    | Return _ hints =>
        if bool_decide (length (_confs hints) = 0%nat) then
          match sort_by_speedup (ParalHints_copy self) with
          | Raise e _ => Raise e self
          | Return _ discarded =>
              match getitem_last hints with
              | Return c _ => Return (ParalConf_copy c) self
              | Raise e _ => Raise e self
              end
          end
        else
          match getitem_last hints with
          | Return c _ => Return (ParalConf_copy c) self
          | Raise e _ => Raise e self
          end
    end.

(** ** Concrete tasks, disks and worlds used in the examples *)

Definition shell_adapter : QueueAdapter :=
  {| get_script_str := fun a =>
       "#!/bin/bash" +:+ newline +:+ "cd " +:+ launch_dir a +:+ newline
       +:+ executable_arg a +:+ " < " +:+ stdin_arg a
       +:+ " > " +:+ stdout_arg a +:+ " 2> " +:+ stderr_arg a;
     submit_to_queue := fun _ => ({| pid := 4242 |}, 4242) |}.

Definition shell_manager : TaskManager := {| qadapter := shell_adapter |}.

Definition si_strategy : Strategy :=
  {| make_input_str := "ecut 10" +:+ newline +:+ "ngkpt 4 4 4";
     pseudos := ["/pseudos/14si.pspnc"] |}.

Definition si_task : Task := AbinitTask_init "/scratch/si_scf" si_strategy shell_manager.

Definition empty_disk : FileSystem := {| files := ∅; dirs := ∅ |}.

(** No output can be parsed: the parser fails to open the file. *)
Definition no_output (p : string) : parse_result := ParserCrash (IOError p).

(** The world at submission time: an empty disk. *)
Definition world_at_submit : World :=
  {| fs := empty_disk; EventParser_parse := no_output;
     time_time := 1380000000; time_asctime := "Tue Sep 24 07:20:00 2013";
     Popen_poll := fun _ => None; Popen_wait := fun _ => 0;
     File_write := open_w_write |}.

(** The task as [submit] leaves it. *)
Definition submitted_task : Task := fst (final_state (submit world_at_submit si_task)).

Definition disk_after_submit : FileSystem :=
  snd (final_state (submit world_at_submit si_task)).

(** The submission command has exited with code 0. *)
Definition world_handle_exited : World :=
  {| fs := disk_after_submit; EventParser_parse := no_output;
     time_time := 1380000060; time_asctime := "Tue Sep 24 07:21:00 2013";
     Popen_poll := fun _ => Some 0; Popen_wait := fun _ => 0;
     File_write := open_w_write |}.

(** The job is computing: the main output is there, it parses, it is not
    complete and reports neither errors nor bugs; no error file exists. *)
Definition disk_computing : FileSystem :=
  {| files := <[output_file si_task := "iter 1 etot -8.51"]> (files disk_after_submit);
     dirs := dirs disk_after_submit |}.

Definition report_unfinished : EventReport :=
  {| run_completed := false; errors := []; bugs := [] |}.

Definition world_computing : World :=
  {| fs := disk_computing; EventParser_parse := fun _ => Parsed report_unfinished;
     time_time := 1380000120; time_asctime := "Tue Sep 24 07:22:00 2013";
     Popen_poll := fun _ => Some 0; Popen_wait := fun _ => 0;
     File_write := open_w_write |}.

(** The job crashed before writing its output: only the stderr file is
    there, and it is not empty. *)
Definition disk_crashed : FileSystem :=
  {| files := <[stderr_file si_task := "forrtl: severe (174): SIGSEGV"]>
                (files disk_after_submit);
     dirs := dirs disk_after_submit |}.

Definition world_crashed : World :=
  {| fs := disk_crashed; EventParser_parse := no_output;
     time_time := 1380000120; time_asctime := "Tue Sep 24 07:22:00 2013";
     Popen_poll := fun _ => Some 0; Popen_wait := fun _ => 0;
     File_write := open_w_write |}.

(** The output parses, is not complete, and reports one error. *)
Definition report_with_error : EventReport :=
  {| run_completed := false;
     errors := ["ERROR: chkinp: ecut must be positive"];
     bugs := [] |}.

Definition world_abinit_error : World :=
  {| fs := disk_computing; EventParser_parse := fun _ => Parsed report_with_error;
     time_time := 1380000120; time_asctime := "Tue Sep 24 07:22:00 2013";
     Popen_poll := fun _ => Some 0; Popen_wait := fun _ => 0;
     File_write := open_w_write |}.

(** Submit, poll once the submission command has exited, then check. *)
Definition supervise_once : list (World * call) :=
  [(world_at_submit, Submit); (world_handle_exited, Poll);
   (world_computing, CheckStatus)].

(** A working directory that a previous run has filled, with a job
    script and an input file of its own. *)
Definition disk_prepared : FileSystem :=
  {| files := <[job_file si_task := "#!/bin/bash" +:+ newline +:+ "echo hand-written"]>
               (<[input_file si_task := "ecut 40"]>
                 (<[files_file si_task := "kept.files"]> ∅));
     dirs := {[workdir si_task]} ∪ {[indata_dir si_task]}
             ∪ {[outdata_dir si_task]} ∪ {[tmpdata_dir si_task]} |}.

Definition world_prepared : World :=
  {| fs := disk_prepared; EventParser_parse := no_output;
     time_time := 1380000000; time_asctime := "Tue Sep 24 07:20:00 2013";
     Popen_poll := fun _ => None; Popen_wait := fun _ => 0;
     File_write := open_w_write |}.

(** The script that [write_jobfile] renders for a task. *)
Definition rendered_script (m : TaskManager) (t : Task) : string :=
  get_script_str (qadapter m)
    {| job_name := name t; launch_dir := workdir t;
       executable_arg := executable t;
       qout_path := qout_file t; qerr_path := qerr_file t;
       stdin_arg := files_file t; stdout_arg := log_file t;
       stderr_arg := stderr_file t |}.

(** Results of a task that exited with code 0 but ended in status Error. *)
Definition results_exit0_error : TaskResults :=
  TaskResults_init "/scratch/si_scf" 0 S_ERROR "{}".

(** Results of a task that exited with code 1 in status Error. *)
Definition results_exit1_error : TaskResults :=
  TaskResults_init "/scratch/si_scf" 1 S_ERROR "{}".

(** Four configurations with 84, 108, 96 and 108 CPUs in total and
    speedups 1.5, 27, 0.25 and 0.25. *)
Definition conf (ncpus mpi : Z) (eff : float) : ParalConf :=
  {| tot_ncpus := ncpus; mpi_ncpus := mpi; efficiency := eff;
     omp_ncpus := None; mem_per_cpu := None; vars := None |}.

Definition kgb_header : gmap string Z :=
  list_to_map [("version", 1); ("autoparal", 1); ("max_ncpus", 108)].



Definition no_hints : ParalHints := ParalHints_init kgb_header [].

(** Two configurations whose speedups round to the same float:
    0.30000000000000004 on 1 CPU, and 0.1 on 3 CPUs. *)
Definition tie_hints : ParalHints :=
  ParalHints_init kgb_header
    [conf 1 1 0x1.3333333333334p-2%float; conf 3 3 0x1.999999999999ap-4%float].


(** A policy asking for autoparal without [max_ncpus], and one with a
    key that [_DEFAULTS] does not know. *)
Definition policy_no_max : gmap string pyvalue := {["autoparal" := PyInt 1]}.

Definition policy_unknown_key : gmap string pyvalue :=
  <["automated" := PyBool false]> {["mode" := PyStr "aggressive"]}.

(* ===================================================================== *)
(** * Part II: properties                                                 *)
(* ===================================================================== *)

(** ** [set_status] *)

Lemma possible_status_cases (s : Z) :
  s ∈ POSSIBLE_STATUS <->
  s = S_READY \/ s = S_SUB \/ s = S_RUN \/ s = S_DONE \/ s = S_ERROR \/ s = S_OK.
Proof.
  unfold POSSIBLE_STATUS. rewrite !elem_of_cons, elem_of_nil. tauto.
Qed.

(** A recognised status is always installed, and [set_status] returns it. *)
Lemma set_status_returns (w : World) (s : Z) (e : option string) (t : Task) :
  s ∈ POSSIBLE_STATUS ->
  exists t', set_status w s e t = Return s t'
             /\ status t' = s
             /\ _returncode t' = _returncode t
             /\ _process t' = _process t
             /\ workdir t' = workdir t.
Proof.
  intros Hs. unfold set_status.
  rewrite (bool_decide_eq_true_2 _ Hs). cbn [negb].
  destruct (negb (s =? _status t)).
  - destruct (s =? S_SUB), (s =? S_OK), (s =? S_ERROR);
      eexists; (split; [reflexivity | repeat split]).
  - eexists; (split; [reflexivity | repeat split]).
Qed.

(** An unrecognised status is refused and nothing changes. *)
Lemma set_status_unknown (w : World) (s : Z) (e : option string) (t : Task) :
  s ∉ POSSIBLE_STATUS ->
  set_status w s e t = Raise (RuntimeError ("Unknown status: " +:+ pretty s)) t.
Proof.
  intros Hs. unfold set_status.
  now rewrite (bool_decide_eq_false_2 _ Hs).
Qed.

Lemma last_deque_append (x : string) (h : list string) :
  last (deque_append x h) = Some x.
Proof.
  unfold deque_append.
  rewrite drop_app_le by (rewrite length_app; cbn; lia).
  apply last_snoc.
Qed.

Lemma length_deque_append (x : string) (h : list string) :
  (length h <= 10)%nat -> (length (deque_append x h) <= 10)%nat.
Proof.
  intros Hh. unfold deque_append.
  rewrite length_drop, length_app. cbn. lia.
Qed.

(** When the status changes to Error, the history ends with the reason. *)
Lemma set_status_error_history (w : World) (e : option string) (t : Task) :
  status t <> S_ERROR ->
  exists t', set_status w S_ERROR e t = Return S_ERROR t'
             /\ status t' = S_ERROR
             /\ last (history t') =
                Some ("Error info:" +:+ newline +:+ " " +:+ str_of_opt e).
Proof.
  intros Hne. unfold set_status.
  assert (Hin : S_ERROR ∈ POSSIBLE_STATUS)
    by (apply possible_status_cases; tauto).
  rewrite (bool_decide_eq_true_2 _ Hin). cbn [negb].
  assert (Hch : (S_ERROR =? _status t) = false)
    by (apply Z.eqb_neq; unfold status in Hne; congruence).
  rewrite Hch. cbn [negb].
  change (S_ERROR =? S_SUB) with false.
  change (S_ERROR =? S_OK) with false.
  change (S_ERROR =? S_ERROR) with true.
  cbv iota.
  eexists. split; [reflexivity |]. split; [reflexivity |].
  cbn [history history_append with_history]. apply last_deque_append.
Qed.

(** [return self.set_status(s, ...)] as it appears in [check_status]. *)
Lemma return_set_status (w : World) (s : Z) (e : option string) (t : Task) :
  s ∈ POSSIBLE_STATUS ->
  exists t', (do x <- set_status w s e ; ret (Some x)) t = Return (Some s) t'
             /\ status t' = s.
Proof.
  intros Hs.
  destruct (set_status_returns w s e t Hs) as (t' & Heq & Hst & _).
  exists t'. unfold bind, ret. now rewrite Heq.
Qed.

Lemma S_RUN_possible : S_RUN ∈ POSSIBLE_STATUS.
Proof. apply possible_status_cases; tauto. Qed.

Lemma S_SUB_possible : S_SUB ∈ POSSIBLE_STATUS.
Proof. apply possible_status_cases; tauto. Qed.

Lemma S_DONE_possible : S_DONE ∈ POSSIBLE_STATUS.
Proof. apply possible_status_cases; tauto. Qed.

Lemma S_ERROR_possible : S_ERROR ∈ POSSIBLE_STATUS.
Proof. apply possible_status_cases; tauto. Qed.

Lemma S_OK_possible : S_OK ∈ POSSIBLE_STATUS.
Proof. apply possible_status_cases; tauto. Qed.

Create HintDb status_db.
#[local] Hint Resolve S_RUN_possible S_SUB_possible S_DONE_possible
  S_ERROR_possible S_OK_possible : status_db.

(** ** [check_status], branch by branch *)

Ltac installs s :=
  match goal with
  | |- check_status_effect ?t ((do x <- set_status ?w s ?e ; ret (Some x)) ?t) =>
      let t' := fresh "t'" in
      let Heq := fresh "Heq" in
      let Hst := fresh "Hst" in
      destruct (return_set_status w s e t ltac:(auto with status_db))
        as (t' & Heq & Hst);
      rewrite Heq; apply cs_installed; [tauto | exact Hst]
  end.

Lemma error_file_or_effect (w : World) (p : string) (k : M Task (option Z)) (t : Task) :
  check_status_effect t (k t) ->
  check_status_effect t (error_file_or w p k t).
Proof.
  intros Hk. unfold error_file_or.
  destruct (File_exists (fs w) p); [| exact Hk].
  destruct (File_read (fs w) p) as [err_info |].
  - destruct (str_truthy err_info); [installs S_ERROR | exact Hk].
  - now apply cs_untouched.
Qed.

Lemma check_status_parse_effect (w : World) (t : Task) :
  check_status_effect t (check_status_parse w t).
Proof.
  unfold check_status_parse.
  destruct (EventParser_parse w (output_file t)) as [report | msg | e].
  - destruct (run_completed report); [installs S_OK |].
    destruct (negb (bool_decide (errors report = []))
              || negb (bool_decide (bugs report = []))).
    + now apply cs_untouched.
    + do 2 apply error_file_or_effect. installs S_RUN.
  - installs S_ERROR.
  - now apply cs_untouched.
Qed.

Lemma check_status_has_effect (w : World) (t : Task) :
  check_status_effect t (check_status w t).
Proof.
  unfold check_status.
  destruct (status t <? S_SUB); [now apply cs_untouched |].
  destruct (negb (bool_decide (returncode t = Some 0))); [installs S_ERROR |].
  destruct (negb (File_exists (fs w) (output_file t)));
    [| apply check_status_parse_effect].
  destruct (negb (File_exists (fs w) (stderr_file t)));
    [now apply cs_untouched |].
  destruct (File_read (fs w) (stderr_file t)) as [err_msg |];
    [| now apply cs_untouched].
  destruct (str_truthy err_msg);
    [now apply cs_untouched | apply check_status_parse_effect].
Qed.

(** Below Submitted nothing is looked at and nothing changes; the bare
    [return] hands back [None]. *)
Lemma check_status_not_submitted (w : World) (t : Task) :
  status t < S_SUB -> check_status w t = Return None t.
Proof.
  intros Hlt. unfold check_status.
  now rewrite (proj2 (Z.ltb_lt _ _) Hlt).
Qed.

(** A return code other than 0, [None] included, gives Error. *)
Lemma check_status_bad_returncode (w : World) (t : Task) :
  S_SUB <= status t -> returncode t <> Some 0 ->
  exists t', check_status w t = Return (Some S_ERROR) t'
             /\ status t' = S_ERROR
             /\ (status t <> S_ERROR ->
                 last (history t') =
                 Some ("Error info:" +:+ newline +:+ " return code "
                       +:+ str_of_rc (returncode t))).
Proof.
  intros Hsub Hrc. unfold check_status.
  rewrite (proj2 (Z.ltb_ge _ _) Hsub).
  rewrite (bool_decide_eq_false_2 _ Hrc). cbn [negb].
  destruct (decide (status t = S_ERROR)) as [Herr | Hne].
  - destruct (return_set_status w S_ERROR
                (Some ("return code " +:+ str_of_rc (returncode t))) t
                S_ERROR_possible) as (t' & Heq & Hst).
    exists t'. rewrite Heq. repeat split; [exact Hst | tauto].
  - destruct (set_status_error_history w
                (Some ("return code " +:+ str_of_rc (returncode t))) t Hne)
      as (t' & Heq & Hst & Hh).
    exists t'. unfold bind, ret. rewrite Heq.
    repeat split; [exact Hst |]. intros _. exact Hh.
Qed.

(** Exit code 0, no output, no stderr file: the job is still queued. *)
Lemma check_status_queued (w : World) (t : Task) :
  S_SUB <= status t -> returncode t = Some 0 ->
  File_exists (fs w) (output_file t) = false ->
  File_exists (fs w) (stderr_file t) = false ->
  check_status w t = Return (Some (status t)) t.
Proof.
  intros Hsub Hrc Hout Herr. unfold check_status.
  rewrite (proj2 (Z.ltb_ge _ _) Hsub).
  rewrite (bool_decide_eq_true_2 _ Hrc), Hout, Herr. reflexivity.
Qed.

(** Exit code 0, no output, a stderr file with something in it: the
    call stops at the unbound name [err_msf]. *)
Lemma check_status_stderr_raises (w : World) (t : Task) (err_msg : string) :
  S_SUB <= status t -> returncode t = Some 0 ->
  File_exists (fs w) (output_file t) = false ->
  File_read (fs w) (stderr_file t) = Some err_msg ->
  str_truthy err_msg = true ->
  check_status w t = Raise (NameError "err_msf") t.
Proof.
  intros Hsub Hrc Hout Hread Hne. unfold check_status.
  rewrite (proj2 (Z.ltb_ge _ _) Hsub).
  rewrite (bool_decide_eq_true_2 _ Hrc), Hout. cbn [negb].
  assert (Hex : File_exists (fs w) (stderr_file t) = true).
  { unfold File_exists, os_path_exists. apply orb_true_iff. left.
    apply bool_decide_eq_true_2, elem_of_dom.
    unfold File_read in Hread. now rewrite Hread. }
  now rewrite Hex, Hread, Hne.
Qed.

(** The output parses, the run is not complete, errors or bugs are
    reported: the call stops at the unbound name [report_bus]. *)
Lemma check_status_report_raises (w : World) (t : Task) (report : EventReport) :
  S_SUB <= status t -> returncode t = Some 0 ->
  File_exists (fs w) (output_file t) = true ->
  EventParser_parse w (output_file t) = Parsed report ->
  run_completed report = false ->
  errors report <> [] \/ bugs report <> [] ->
  check_status w t = Raise (NameError "report_bus") t.
Proof.
  intros Hsub Hrc Hout Hparse Hrun Hbad. unfold check_status.
  rewrite (proj2 (Z.ltb_ge _ _) Hsub).
  rewrite (bool_decide_eq_true_2 _ Hrc), Hout. cbn [negb].
  unfold check_status_parse. rewrite Hparse, Hrun.
  assert (Hor : negb (bool_decide (errors report = []))
                || negb (bool_decide (bugs report = [])) = true).
  { apply orb_true_iff. destruct Hbad as [He | Hb]; [left | right];
      now rewrite bool_decide_eq_false_2. }
  now rewrite Hor.
Qed.

(** ** The claims about [check_status] *)

(** C9.  A task that was never submitted (status Ready, below Submitted):
    [check_status] leaves every attribute as it was, and the value it
    returns is [None], not the current status. *)
Theorem check_status_ready_returns_None :
  status si_task = S_READY
  /\ status si_task < S_SUB
  /\ check_status world_at_submit si_task = Return None si_task
  /\ returned (check_status world_at_submit si_task) <> Some (Some (status si_task)).
Proof.
  split; [reflexivity |]. split; [reflexivity |].
  rewrite check_status_not_submitted by reflexivity.
  split; [reflexivity | discriminate].
Qed.

(** C4.  A submitted task with exit code 0 and no output file, whose
    stderr file holds a message: [check_status] raises [NameError] on
    [err_msf]; the status stays Submitted and no Error is recorded. *)
Theorem check_status_stderr_NameError :
  status submitted_task = S_SUB
  /\ returncode submitted_task = Some 0
  /\ File_exists (fs world_crashed) (output_file submitted_task) = false
  /\ File_read (fs world_crashed) (stderr_file submitted_task)
     = Some "forrtl: severe (174): SIGSEGV"
  /\ check_status world_crashed submitted_task
     = Raise (NameError "err_msf") submitted_task.
Proof.
  assert (Hst : status submitted_task = S_SUB) by reflexivity.
  assert (Hrc : returncode submitted_task = Some 0) by reflexivity.
  assert (Hout : File_exists (fs world_crashed) (output_file submitted_task) = false)
    by (vm_compute; reflexivity).
  assert (Hread : File_read (fs world_crashed) (stderr_file submitted_task)
                  = Some "forrtl: severe (174): SIGSEGV")
    by (vm_compute; reflexivity).
  do 4 (split; [assumption |]).
  apply (check_status_stderr_raises _ _ _ ltac:(rewrite Hst; reflexivity)
           Hrc Hout Hread).
  reflexivity.
Qed.

(** C5.  A submitted task with exit code 0 whose output file parses,
    is not complete and reports an error: [check_status] raises
    [NameError] on [report_bus]; the status stays Submitted. *)
Theorem check_status_report_NameError :
  status submitted_task = S_SUB
  /\ returncode submitted_task = Some 0
  /\ File_exists (fs world_abinit_error) (output_file submitted_task) = true
  /\ EventParser_parse world_abinit_error (output_file submitted_task)
     = Parsed report_with_error
  /\ run_completed report_with_error = false
  /\ errors report_with_error <> []
  /\ check_status world_abinit_error submitted_task
     = Raise (NameError "report_bus") submitted_task.
Proof.
  assert (Hst : status submitted_task = S_SUB) by reflexivity.
  assert (Hout : File_exists (fs world_abinit_error) (output_file submitted_task) = true)
    by (vm_compute; reflexivity).
  assert (Herrs : errors report_with_error <> []) by discriminate.
  do 6 (split; [assumption || reflexivity |]).
  apply (check_status_report_raises _ _ report_with_error);
    [rewrite Hst; reflexivity | reflexivity | exact Hout
    | reflexivity | reflexivity | left; exact Herrs].
Qed.

(** C10.  A submitted task whose process is still running: [poll]
    returns [None] and records it as the return code; the next
    [check_status], whatever the disk holds, finds [None != 0], sets the
    status to Error with the reason "return code None" and returns it. *)
Theorem check_status_after_poll_None (w w' : World) (t : Task) :
  S_SUB <= status t ->
  process_poll w t = None ->
  exists t1,
    poll w t = Return None t1
    /\ _returncode t1 = Some None
    /\ status t1 = status t
    /\ exists t2,
         check_status w' t1 = Return (Some S_ERROR) t2
         /\ status t2 = S_ERROR
         /\ (status t <> S_ERROR ->
             last (history t2) =
             Some ("Error info:" +:+ newline +:+ " return code None")).
Proof.
  intros Hsub Hpoll.
  exists (with_returncode None t).
  split; [unfold poll; now rewrite Hpoll |].
  split; [reflexivity |]. split; [reflexivity |].
  destruct (check_status_bad_returncode w' (with_returncode None t))
    as (t2 & Heq & Hst & Hh); [exact Hsub | discriminate |].
  exists t2. repeat split; [exact Heq | exact Hst | exact Hh].
Qed.

Lemma check_status_after_poll_None_witness :
  exists t1,
    poll world_at_submit submitted_task = Return None t1
    /\ _returncode t1 = Some None
    /\ status t1 = status submitted_task
    /\ exists t2,
         check_status world_computing t1 = Return (Some S_ERROR) t2
         /\ status t2 = S_ERROR
         /\ (status submitted_task <> S_ERROR ->
             last (history t2) =
             Some ("Error info:" +:+ newline +:+ " return code None")).
Proof.
  apply (check_status_after_poll_None world_at_submit world_computing submitted_task).
  - vm_compute. discriminate.
  - reflexivity.
Defined.

(** ** The status along a sequence of calls *)

(** One call either leaves the status as it is or installs one of
    Submitted, Running, Done, Error, Ok. *)
Lemma step_status (w : World) (c : call) (t : Task) :
  status (step w c t) = status t \/ S_SUB <= status (step w c t).
Proof.
  destruct c; unfold step.
  - (* Submit *)
    unfold submit, launch.
    destruct (build w t (fs w)) as [[] fs1 | e fs1]; [| now left].
    destruct (write_jobfile (manager t) t fs1) as [script fs2 | e fs2];
      [| now left].
    destruct (set_status_returns w S_SUB None t S_SUB_possible)
      as (t1 & Heq & Hst & _).
    rewrite Heq.
    destruct (submit_to_queue (qadapter (manager t)) script) as [process queue_id].
    right. cbn. unfold status in Hst. rewrite Hst. reflexivity.
  - (* Poll *)
    unfold poll.
    destruct (process_poll w t) as [rc |]; [| now left].
    destruct (set_status_returns w S_DONE None (with_returncode (Some rc) t)
                S_DONE_possible) as (t1 & Heq & Hst & _).
    unfold bind, ret. rewrite Heq. right. cbn [final_state].
    rewrite Hst. discriminate.
  - (* Wait *)
    unfold wait.
    destruct (_process t) as [p |]; [| now left].
    destruct (set_status_returns w S_DONE None
                (with_returncode (Some (Popen_wait w p)) t)
                S_DONE_possible) as (t1 & Heq & Hst & _).
    unfold bind, ret. rewrite Heq. right. cbn [final_state].
    rewrite Hst. discriminate.
  - (* CheckStatus *)
    destruct (check_status_has_effect w t) as [o Ho | s t' Hs Hst].
    + left. now rewrite Ho.
    + right. cbn [final_state]. rewrite Hst.
      destruct Hs as [-> | [-> | ->]]; discriminate.
Qed.

(** C1, as amended.  Along any sequence of submit, poll, wait and
    check_status calls, in any worlds, a task whose status is at least
    Submitted keeps a status that is at least Submitted: none of these
    calls takes it back to Ready. *)
Theorem submitted_never_back_to_ready (calls : list (World * call)) (t : Task) :
  S_SUB <= status t ->
  Forall (fun s => S_SUB <= s) (trace calls t).
Proof.
  revert t. induction calls as [| [w c] rest IH]; intros t Hsub; cbn [trace].
  - constructor.
  - assert (Hstep : S_SUB <= status (step w c t)).
    { destruct (step_status w c t) as [Heq | Hge]; [rewrite Heq |]; assumption. }
    constructor; [exact Hstep | apply IH, Hstep].
Qed.

Lemma submitted_never_back_to_ready_witness :
  Forall (fun s => S_SUB <= s)
         (trace [(world_handle_exited, Poll); (world_computing, CheckStatus)]
                submitted_task).
Proof.
  apply (submitted_never_back_to_ready
           [(world_handle_exited, Poll); (world_computing, CheckStatus)]
           submitted_task).
  vm_compute. discriminate.
Defined.

(** C1, as stated, fails: submit, then poll once the submission command
    has exited (Done), then check_status while the output is still being
    written (Running).  The status goes 2, 8, 4. *)
Lemma status_decreases_done_to_running :
  trace supervise_once si_task = [S_SUB; S_DONE; S_RUN]
  /\ ~ nondecreasing_from (status si_task) (trace supervise_once si_task).
Proof.
  assert (Htrace : trace supervise_once si_task = [S_SUB; S_DONE; S_RUN])
    by (vm_compute; reflexivity).
  split; [exact Htrace |].
  rewrite Htrace. cbn. intros (_ & _ & Hle & _).
  revert Hle. unfold S_DONE, S_RUN. lia.
Qed.

(** ** [AbinitTask.build] *)

(** Whatever [File.write] does, a [build] that returns has just written
    the freshly rendered script into the job file. *)
Lemma build_writes_job_file (w : World) (t : Task) (fsys fs' : FileSystem) :
  build w t fsys = Return tt fs' ->
  files fs' !! job_file t = Some (rendered_script (manager t) t).
Proof.
  unfold build, bind. intros H.
  repeat match type of H with
         | context [match ?c with Return _ _ => _ | Raise _ _ => _ end] =>
             destruct c as [? ?f | ? ?f] eqn:?E; [| discriminate H]
         end.
  injection H as <-.
  match goal with
  | Hw : write_jobfile _ _ ?f0 = Return _ _ |- _ =>
      revert Hw; unfold write_jobfile, bind, open_w_write, ret;
      destruct (bool_decide (job_file t ∈ dirs f0)); [discriminate |];
      intros [= _ <-]
  end.
  cbn [files]. apply lookup_insert_eq.
Qed.

(** The files file is written only when nothing is at its path. *)
Lemma unless_exists_keeps (p : string) (c : M FileSystem unit) (fsys : FileSystem) :
  os_path_exists fsys p = true -> unless_exists p c fsys = Return tt fsys.
Proof. intros H. unfold unless_exists. now rewrite H. Qed.

(** C7.  A working directory that already holds a job script and an
    input file: [build] keeps the files file but replaces the content of
    the job script and of the input file. *)
Theorem build_overwrites_job_and_input :
  files disk_prepared !! job_file si_task
  = Some ("#!/bin/bash" +:+ newline +:+ "echo hand-written")
  /\ files disk_prepared !! input_file si_task = Some "ecut 40"
  /\ files disk_prepared !! files_file si_task = Some "kept.files"
  /\ exists fs',
       build world_prepared si_task disk_prepared = Return tt fs'
       /\ files fs' !! job_file si_task = Some (rendered_script shell_manager si_task)
       /\ files fs' !! job_file si_task <> files disk_prepared !! job_file si_task
       /\ files fs' !! input_file si_task = Some (make_input si_task)
       /\ files fs' !! input_file si_task <> files disk_prepared !! input_file si_task
       /\ files fs' !! files_file si_task = Some "kept.files".
Proof.
  split; [vm_compute; reflexivity |].
  split; [vm_compute; reflexivity |].
  split; [vm_compute; reflexivity |].
  eexists. split; [vm_compute; reflexivity |].
  split; [vm_compute; reflexivity |].
  split; [vm_compute; discriminate |].
  split; [vm_compute; reflexivity |].
  split; [vm_compute; discriminate |].
  vm_compute; reflexivity.
Qed.

(** On the same disk a second [build] of the same task changes nothing
    more: what it overwrites, it overwrites with the same text. *)
Lemma build_twice_prepared :
  forall fs1, build world_prepared si_task disk_prepared = Return tt fs1 ->
              build world_prepared si_task fs1 = Return tt fs1.
Proof.
  intros fs1 H.
  assert (Hfs : Return (S := FileSystem) tt fs1
                = Return tt (final_state (build world_prepared si_task disk_prepared)))
    by now rewrite H.
  injection Hfs as ->. vm_compute. reflexivity.
Qed.

(** ** [TaskResults.assert_valid] *)

Lemma push_empty_message_new (r : TaskResults) :
  "" ∉ exceptions r ->
  push_exceptions [""] r = with_exceptions (exceptions r ++ [""]) r.
Proof.
  intros Hnew. cbn [push_exceptions].
  now rewrite (bool_decide_eq_false_2 _ Hnew).
Qed.

Lemma push_empty_message_known (r : TaskResults) :
  "" ∈ exceptions r -> push_exceptions [""] r = r.
Proof.
  intros Hin. cbn [push_exceptions].
  now rewrite (bool_decide_eq_true_2 _ Hin).
Qed.

(** A non-zero return code: the left operand of [and] decides, [S_OK]
    is never looked up, and one (empty) description is recorded. *)
Lemma assert_valid_bad_returncode (cls : option Z) (r : TaskResults) :
  task_returncode r <> 0 ->
  "" ∉ exceptions r ->
  assert_valid cls r
  = Return (exceptions r ++ [""]) (with_exceptions (exceptions r ++ [""]) r).
Proof.
  intros Hrc Hnew. unfold assert_valid.
  rewrite (proj2 (Z.eqb_neq _ _) Hrc). cbn [negb].
  now rewrite push_empty_message_new.
Qed.

(** Calling it again on the result adds nothing. *)
Lemma assert_valid_bad_returncode_twice (cls : option Z) (r : TaskResults) :
  task_returncode r <> 0 ->
  exceptions r = [] ->
  exists r1,
    assert_valid cls r = Return [""] r1
    /\ assert_valid cls r1 = Return [""] r1.
Proof.
  intros Hrc Hnil.
  exists (with_exceptions [""] r). split.
  - rewrite assert_valid_bad_returncode; [now rewrite Hnil | exact Hrc |].
    rewrite Hnil. apply not_elem_of_nil.
  - unfold assert_valid. cbn [task_returncode with_exceptions].
    rewrite (proj2 (Z.eqb_neq _ _) Hrc). cbn [negb].
    rewrite push_empty_message_known; [reflexivity |].
    cbn. apply list_elem_of_here.
Qed.

(** Had the class an attribute [S_OK] equal to [Task.S_OK], a zero
    return code with a status other than Ok would be recorded too. *)
Lemma assert_valid_bad_status_if_bound (r : TaskResults) :
  task_returncode r = 0 ->
  task_status r <> S_OK ->
  exceptions r = [] ->
  assert_valid (Some S_OK) r = Return [""] (with_exceptions [""] r).
Proof.
  intros Hrc Hst Hnil. unfold assert_valid.
  rewrite Hrc. cbn [Z.eqb negb].
  rewrite (proj2 (Z.eqb_neq _ _) Hst).
  rewrite push_empty_message_new by (rewrite Hnil; apply not_elem_of_nil).
  now rewrite Hnil.
Qed.

(** C6.  A record with return code 0 and status Error: the assertion
    evaluates [self.S_OK], which [TaskResults] does not have, and
    [assert_valid] raises [AttributeError]; nothing is appended. *)
Theorem assert_valid_exit0_AttributeError :
  task_returncode results_exit0_error = 0
  /\ task_status results_exit0_error <> S_OK
  /\ assert_valid TaskResults_S_OK results_exit0_error
     = Raise (AttributeError "S_OK") results_exit0_error
  /\ exceptions (final_state (assert_valid TaskResults_S_OK results_exit0_error)) = [].
Proof.
  split; [reflexivity |].
  split; [discriminate |].
  split; reflexivity.
Qed.

(** The record of the specification's example (return code 1, status
    Error) is handled as described: one entry, and still one after a
    second call. *)
Lemma assert_valid_exit1_once :
  exists r1,
    assert_valid TaskResults_S_OK results_exit1_error = Return [""] r1
    /\ assert_valid TaskResults_S_OK r1 = Return [""] r1.
Proof.
  apply assert_valid_bad_returncode_twice; [discriminate | reflexivity].
Qed.

(** ** Binary64 comparisons *)












(** ** [list.sort(key=...)] *)

Section KeyedSort.

Context {A : Type}.









End KeyedSort.

(** ** [ParalHints.select_optimal_conf] *)


(** Both branches of [select_optimal_conf] end in [hints[-1].copy()]. *)
Lemma select_optimal_conf_last (policy : gmap string pyvalue) (self : ParalHints) :
  select_optimal_conf policy self
  = match list_sort speedup (map ParalConf_init (_confs self)) with
    | Some l =>
        match last l with
        | Some c => Return (ParalConf_copy c) self
        | None => Raise (IndexError "list index out of range") self
        end
    | None => Raise (OverflowError "long int too large to convert to float") self
    end.
Proof.
  unfold select_optimal_conf, sort_by_speedup, ParalHints_copy, ParalHints_init.
  cbn [_confs header].
  destruct (list_sort speedup (map ParalConf_init (_confs self))) as [l |];
    [| reflexivity].
  unfold getitem_last. cbn [_confs].
  destruct (bool_decide (length l = 0%nat)); now destruct (last l).
Qed.

(** C2, as amended.  On a set without configurations, whatever the
    policy, [select_optimal_conf] raises [IndexError] at [hints[-1]];
    the caller's set is as it was. *)
Theorem select_optimal_conf_empty_raises
    (policy : gmap string pyvalue) (self : ParalHints) :
  _confs self = [] ->
  select_optimal_conf policy self
  = Raise (IndexError "list index out of range") self.
Proof.
  intros Hnil. rewrite select_optimal_conf_last, Hnil. reflexivity.
Qed.

Lemma select_optimal_conf_empty_raises_witness :
  select_optimal_conf TaskPolicy_DEFAULTS no_hints
  = Raise (IndexError "list index out of range") no_hints.
Proof.
  apply (select_optimal_conf_empty_raises TaskPolicy_DEFAULTS no_hints).
  reflexivity.
Defined.

(** C2, as stated, fails: on the empty set the call raises, it returns
    no configuration. *)
Lemma select_optimal_conf_empty_does_raise :
  _confs no_hints = []
  /\ raises (select_optimal_conf TaskPolicy_DEFAULTS no_hints) = true
  /\ returned (select_optimal_conf TaskPolicy_DEFAULTS no_hints) = None.
Proof.
  split; [reflexivity |]. split; reflexivity.
Qed.




(** Rounding decides ties as in Python: 3 * 0.1 rounds to
    0.30000000000000004, the two keys are equal, the stable sort keeps
    the order of the set and the configuration on 3 CPUs is returned. *)
Lemma select_optimal_conf_rounding_tie :
  map speedup (_confs tie_hints)
  = [Some 0x1.3333333333334p-2; Some 0x1.3333333333334p-2]%float
  /\ select_optimal_conf TaskPolicy_DEFAULTS tie_hints
     = Return (ParalConf_init (conf 3 3 0x1.999999999999ap-4%float)) tie_hints.
Proof.
  split; [vm_compute; reflexivity |].
  rewrite select_optimal_conf_last. vm_compute. reflexivity.
Qed.


(** ** [TaskPolicy.__init__] *)

Lemma str_truthy_app (a b : string) :
  str_truthy (a +:+ b) = str_truthy a || str_truthy b.
Proof. now destruct a. Qed.

Lemma unknown_key_line_truthy (err_msg k : string) :
  str_truthy (err_msg +:+ "Unknow key " +:+ k +:+ newline) = true.
Proof. rewrite str_truthy_app. apply orb_true_r. Qed.

(** The loop over the items never empties the message again ... *)
Lemma unknown_keys_loop_keeps (items : list (string * pyvalue)) (err_msg : string) :
  str_truthy err_msg = true ->
  str_truthy
    (foldl (fun err_msg kv =>
              if bool_decide (fst kv ∈ dom TaskPolicy_DEFAULTS) then err_msg
              else err_msg +:+ "Unknow key " +:+ fst kv +:+ newline)
           err_msg items) = true.
Proof.
  revert err_msg. induction items as [| kv items IH]; intros err_msg H; [exact H |].
  cbn [foldl]. apply IH.
  destruct (bool_decide _); [exact H | apply unknown_key_line_truthy].
Qed.

(** ... and one unknown key among the items is enough to fill it. *)
Lemma unknown_keys_loop_finds (items : list (string * pyvalue)) (err_msg : string)
    (kv : string * pyvalue) :
  kv ∈ items ->
  fst kv ∉ dom TaskPolicy_DEFAULTS ->
  str_truthy
    (foldl (fun err_msg kv =>
              if bool_decide (fst kv ∈ dom TaskPolicy_DEFAULTS) then err_msg
              else err_msg +:+ "Unknow key " +:+ fst kv +:+ newline)
           err_msg items) = true.
Proof.
  revert err_msg. induction items as [| kv' items IH]; intros err_msg Hin Hunk.
  - now apply elem_of_nil in Hin.
  - cbn [foldl]. apply elem_of_cons in Hin as [<- | Hin].
    + rewrite (bool_decide_eq_false_2 _ Hunk).
      apply unknown_keys_loop_keeps, unknown_key_line_truthy.
    + now apply IH.
Qed.

Lemma unknown_keys_msg_truthy (self : gmap string pyvalue) (k : string) :
  k ∈ dom self -> k ∉ dom TaskPolicy_DEFAULTS ->
  str_truthy (unknown_keys_msg self) = true.
Proof.
  intros Hk Hunk. apply elem_of_dom in Hk as [v Hv].
  unfold unknown_keys_msg.
  apply (unknown_keys_loop_finds _ _ (k, v)); [| exact Hunk].
  now apply elem_of_map_to_list.
Qed.

(** The second loop adds a default exactly where [self] has no value. *)
Lemma fill_loop_lookup (defaults : list (string * pyvalue))
    (acc : gmap string pyvalue) (k : string) :
  foldl (fun acc kv =>
           if bool_decide (fst kv ∈ dom acc) then acc
           else <[fst kv := snd kv]> acc)
        acc defaults !! k
  = match acc !! k with
    | Some v => Some v
    | None => (list_to_map defaults : gmap string pyvalue) !! k
    end.
Proof.
  revert acc. induction defaults as [| [k0 v0] defaults IH]; intros acc.
  - cbn. now destruct (acc !! k).
  - cbn [foldl fst snd]. rewrite IH, list_to_map_cons.
    destruct (bool_decide (k0 ∈ dom acc)) eqn:Hdom.
    + apply bool_decide_eq_true_1 in Hdom.
      destruct (acc !! k) as [v |] eqn:Hk; [reflexivity |].
      rewrite lookup_insert_ne; [reflexivity |].
      intros ->. apply elem_of_dom in Hdom as [v Hv]. congruence.
    + apply bool_decide_eq_false_1 in Hdom.
      apply not_elem_of_dom in Hdom.
      destruct (decide (k0 = k)) as [-> | Hne].
      * rewrite !lookup_insert_eq. now rewrite Hdom.
      * now rewrite !lookup_insert_ne by exact Hne.
Qed.

Lemma fill_defaults_lookup (self : gmap string pyvalue) (k : string) :
  fill_defaults self !! k
  = match self !! k with
    | Some v => Some v
    | None => TaskPolicy_DEFAULTS !! k
    end.
Proof.
  unfold fill_defaults. rewrite fill_loop_lookup.
  now rewrite list_to_map_to_list.
Qed.

(** C8.  The constructor of [TaskPolicy], called with the keyword
    arguments [kwargs], raises [ValueError] when a key of [kwargs] is
    not a key of [_DEFAULTS], and when [autoparal] is a
    non-zero integer while [max_ncpus] is missing or [None]; without any
    keyword it returns, and the policy is exactly [_DEFAULTS]:
    autoparal 0, mode "default", max_ncpus None, use_fw False,
    constraints []. *)
Theorem TaskPolicy_init_validates :
  (forall (kwargs : gmap string pyvalue) (k : string),
      k ∈ dom kwargs ->
      k ∉ ({["autoparal"; "mode"; "max_ncpus"; "use_fw"; "constraints"]} : gset string) ->
      exists msg, TaskPolicy_init kwargs = Raise (ValueError msg) kwargs)
  /\ (forall (kwargs : gmap string pyvalue) (z : Z),
         kwargs !! "autoparal" = Some (PyInt z) ->
         z <> 0 ->
         kwargs !! "max_ncpus" = None \/ kwargs !! "max_ncpus" = Some PyNone ->
         exists msg self, TaskPolicy_init kwargs = Raise (ValueError msg) self)
  /\ TaskPolicy_init ∅ = Return tt TaskPolicy_DEFAULTS
  /\ TaskPolicy_DEFAULTS !! "autoparal" = Some (PyInt 0)
  /\ TaskPolicy_DEFAULTS !! "mode" = Some (PyStr "default")
  /\ TaskPolicy_DEFAULTS !! "max_ncpus" = Some PyNone
  /\ TaskPolicy_DEFAULTS !! "use_fw" = Some (PyBool false)
  /\ TaskPolicy_DEFAULTS !! "constraints" = Some (PyList [])
  /\ dom TaskPolicy_DEFAULTS
     = ({["autoparal"; "mode"; "max_ncpus"; "use_fw"; "constraints"]} : gset string).
Proof.
  assert (Hdom : dom TaskPolicy_DEFAULTS
                 = ({["autoparal"; "mode"; "max_ncpus"; "use_fw"; "constraints"]}
                    : gset string)).
  { unfold TaskPolicy_DEFAULTS.
    rewrite !list_to_map_cons, list_to_map_nil, !dom_insert_L, dom_empty_L.
    set_solver. }
  split; [| split; [| split; [| do 5 (split; [reflexivity |]); exact Hdom]]].
  - intros kwargs k Hk Hunk. rewrite <- Hdom in Hunk.
    unfold TaskPolicy_init.
    rewrite (unknown_keys_msg_truthy kwargs k Hk Hunk). eauto.
  - intros kwargs z Hauto Hz Hmax.
    unfold TaskPolicy_init.
    destruct (str_truthy (unknown_keys_msg kwargs)); [eauto |].
    rewrite !fill_defaults_lookup, Hauto.
    assert (Hmx : match kwargs !! "max_ncpus" with
                  | Some v => Some v
                  | None => TaskPolicy_DEFAULTS !! "max_ncpus"
                  end = Some PyNone)
      by (destruct Hmax as [-> | ->]; reflexivity).
    rewrite Hmx. cbn [py_truthy is_None].
    rewrite (proj2 (Z.eqb_neq _ _) Hz). cbn [negb andb]. eauto.
  - vm_compute. reflexivity.
Qed.

Lemma TaskPolicy_init_validates_witness :
  (exists msg, TaskPolicy_init policy_unknown_key
               = Raise (ValueError msg) policy_unknown_key)
  /\ (exists msg self, TaskPolicy_init policy_no_max = Raise (ValueError msg) self).
Proof.
  split.
  - apply (proj1 TaskPolicy_init_validates policy_unknown_key "automated").
    + apply elem_of_dom. eexists. reflexivity.
    + vm_compute. discriminate.
  - apply (proj1 (proj2 TaskPolicy_init_validates) policy_no_max 1).
    + reflexivity.
    + discriminate.
    + left. reflexivity.
Defined.
